(** * scripts/get_musicbrainz_discid.py

    A shallow embedding of the command-line wrapper that asks python-discid
    for the MusicBrainz disc ID of a CD device, and the properties of its
    command-line contract.

    The script is a straight line of three statements (a guarded import, an
    argument check, a guarded provider call).  Everything it does is an
    effect, so it is embedded in a small monad that threads the trace of
    effects and carries Python exceptions; [try_except] selects on the
    exception class the way an [except C] clause does. *)

From Stdlib Require Import String Ascii List ZArith Bool Lia.
Import ListNotations.
Local Open Scope list_scope.
Local Open Scope string_scope.

(** ** Python values the script touches *)

(** The exception classes that can reach the script.  [ModuleNotFoundError]
    is the subclass of [ImportError] that a missing module raises;
    [OtherClass] stands for any [Exception] subclass outside these
    hierarchies (for instance [OSError] or [TypeError]). *)
Inductive pyclass : Type :=
  | ImportError
  | ModuleNotFoundError
  | DiscError
  | IndexError
  | OtherClass (name : string).

Definition issubclass (c d : pyclass) : bool :=
  match c, d with
  | ImportError, ImportError => true
  | ModuleNotFoundError, ImportError => true
  | ModuleNotFoundError, ModuleNotFoundError => true
  | DiscError, DiscError => true
  | IndexError, IndexError => true
  | OtherClass a, OtherClass b => String.eqb a b
  | _, _ => false
  end.

(** An instance of an [Exception] subclass: its class and the text that
    [str(e)] returns. *)
Record error : Type := mkError { cls : pyclass; str : string }.

(** What a statement can raise.  [sys.exit(n)] raises [SystemExit], which
    derives from [BaseException] only: no [except] clause of the script
    names a class that takes it. *)
Inductive exn : Type :=
  | SystemExit (code : Z)
  | Exception (err : error).

(** What a call into the library gives back. *)
Inductive answer (A : Type) : Type :=
  | Ok (a : A)
  | Fails (err : error).
Arguments Ok {A} a.
Arguments Fails {A} err.

(** What a statement of the script gives back. *)
Inductive result (A : Type) : Type :=
  | Returns (a : A)
  | Raises (ex : exn).
Arguments Returns {A} a.
Arguments Raises {A} ex.

(** ** Effects *)

Inductive stream : Type := Stdout | Stderr.

(** What the outside world can observe of a run, in the order it happens. *)
Inductive event : Type :=
  | EvImport
  | EvRead (device : string)
  | EvWrite (file : stream) (text : string).

Definition M (A : Type) : Type := list event -> result A * list event.

Definition ret {A} (a : A) : M A := fun tr => (Returns a, tr).

Definition bind {A B} (m : M A) (k : A -> M B) : M B :=
  fun tr =>
    match m tr with
    | (Returns a, tr') => k a tr'
    | (Raises ex, tr') => (Raises ex, tr')
    end.

Definition raise {A} (e : exn) : M A := fun tr => (Raises e, tr).

Definition emit (ev : event) : M unit := fun tr => (Returns tt, (tr ++ [ev])%list).

(** [try: body / except cls as e: handler e].  An exception of another class,
    and whatever the handler itself raises, goes on to the caller. *)
Definition try_except {A} (body : M A) (c : pyclass) (handler : error -> M A)
  : M A :=
  fun tr =>
    match body tr with
    | (Returns a, tr') => (Returns a, tr')
    | (Raises (SystemExit n), tr') => (Raises (SystemExit n), tr')
    | (Raises (Exception err), tr') =>
        if issubclass (cls err) c then handler err tr'
        else (Raises (Exception err), tr')
    end.

Declare Scope py_scope.
Delimit Scope py_scope with py.
Notation "x <- m ;; k" := (bind m (fun x => k))
  (at level 61, m at next level, right associativity) : py_scope.
Notation "m ;; k" := (bind m (fun _ => k))
  (at level 61, right associativity) : py_scope.
Local Open Scope py_scope.

Definition NL : string := String (ascii_of_nat 10) EmptyString.

(** [print(s, file=f)]: the text and the line end. *)
Definition print (s : string) (file : stream) : M unit :=
  emit (EvWrite file (s ++ NL)).

(** [sys.exit(n)]. *)
Definition sys_exit {A} (n : Z) : M A := raise (SystemExit n).

(** ** The environment of one invocation *)

Module discid.

(** The object [discid.read] returns; the script reads its [id] only. *)
Record Disc : Type := mkDisc { id : string }.

End discid.

(** What the script cannot decide: the argument vector, whether
    [import discid] works ([None]) or what it raises, and what
    [discid.read] does for a device. *)
Record env : Type := mkEnv {
  argv : list string;
  import_discid : option error;
  discid_read : string -> answer discid.Disc
}.

Section Script.

Variable env0 : env.

(** [import discid] *)
Definition import_ : M unit :=
  emit EvImport ;;
  match import_discid env0 with
  | None => ret tt
  | Some err => raise (Exception err)
  end.

(** [len(sys.argv)] *)
Definition len_argv : M nat := ret (length (argv env0)).

(** [sys.argv[i]] for a non-negative [i]. *)
Definition argv_at (i : nat) : M string :=
  match nth_error (argv env0) i with
  | Some s => ret s
  | None => raise (Exception (mkError IndexError "list index out of range"))
  end.

(** [discid.read(device)] *)
Definition read (device : string) : M discid.Disc :=
  emit (EvRead device) ;;
  match discid_read env0 device with
  | Ok disc => ret disc
  | Fails err => raise (Exception err)
  end.

(** The module body, statement by statement. *)
Definition script : M unit :=
  try_except
    import_
    ImportError (fun _ =>
      print "ERROR: python-discid not installed" Stderr ;;
      print "Install with: pip3 install --break-system-packages discid"
            Stderr ;;
      sys_exit 1) ;;
  n <- len_argv ;;
  (if (n <? 2)%nat then
     prog <- argv_at 0 ;;
     print ("Usage: " ++ prog ++ " <device>") Stderr ;;
     sys_exit 1
   else ret tt) ;;
  device <- argv_at 1 ;;
  try_except
    (disc <- read device ;;
     print (discid.id disc) Stdout)
    DiscError (fun e =>
      print ("ERROR: " ++ str e) Stderr ;;
      sys_exit 1).

End Script.

(** ** The interpreter around the script *)

Definition stream_eqb (f g : stream) : bool :=
  match f, g with
  | Stdout, Stdout | Stderr, Stderr => true
  | _, _ => false
  end.

(** The text a trace leaves on one stream. *)
Fixpoint written (f : stream) (tr : list event) : string :=
  match tr with
  | [] => ""
  | EvWrite g text :: tr' =>
      if stream_eqb f g then text ++ written f tr' else written f tr'
  | _ :: tr' => written f tr'
  end.

(** The devices [discid.read] was called with, in order. *)
Fixpoint reads (tr : list event) : list string :=
  match tr with
  | [] => []
  | EvRead device :: tr' => device :: reads tr'
  | _ :: tr' => reads tr'
  end.

Definition qualname (c : pyclass) : string :=
  match c with
  | ImportError => "ImportError"
  | ModuleNotFoundError => "ModuleNotFoundError"
  | DiscError => "discid.disc.DiscError"
  | IndexError => "IndexError"
  | OtherClass name => name
  end.

(** The report CPython writes to the error stream for an exception nobody
    caught.  The stack-frame lines between the header and the last line
    depend on where the script file lives and are left out. *)
Definition traceback (err : error) : string :=
  "Traceback (most recent call last):" ++ NL ++
  qualname (cls err) ++
  (if String.eqb (str err) "" then "" else ": " ++ str err) ++ NL.

(** What the caller of the process sees. *)
Record process : Type := mkProcess {
  stdout : string;
  stderr : string;
  status : Z;
  trace : list event
}.

(** Run the script the way [python3 script.py args] does: falling off the
    end is status 0, [SystemExit n] is status [n] (a byte), anything else
    uncaught is a traceback and status 1. *)
Definition python (e : env) : process :=
  match script e [] with
  | (Returns _, tr) =>
      mkProcess (written Stdout tr) (written Stderr tr) 0 tr
  | (Raises (SystemExit n), tr) =>
      mkProcess (written Stdout tr) (written Stderr tr) (Z.land n 255) tr
  | (Raises (Exception err), tr) =>
      mkProcess (written Stdout tr) (written Stderr tr ++ traceback err) 1 tr
  end.

(** ** Concrete runs *)

Definition dev0 : string := "/dev/sr0".
Definition prog0 : string := "get_musicbrainz_discid.py".

Definition good_provider (device : string) : answer discid.Disc :=
  Ok (discid.mkDisc "abc123XYZ").

Definition empty_drive (device : string) : answer discid.Disc :=
  Fails (mkError DiscError "no disc in drive").

Definition broken_provider (device : string) : answer discid.Disc :=
  Fails (mkError (OtherClass "NotImplementedError") "no features").

Definition no_module : error :=
  mkError ModuleNotFoundError "No module named 'discid'".

Definition env_success : env := mkEnv [prog0; dev0] None good_provider.
Definition env_empty_drive : env := mkEnv [prog0; dev0] None empty_drive.
Definition env_no_argument : env := mkEnv [prog0] None good_provider.
Definition env_not_installed : env :=
  mkEnv [prog0; dev0] (Some no_module) good_provider.
Definition env_broken_provider : env :=
  mkEnv [prog0; dev0] None broken_provider.
Definition env_extra_argument : env :=
  mkEnv [prog0; dev0; "extra"] None good_provider.

(** The outcome that the usage check produces: the synopsis on the error
    stream, a non-zero status, and no call of the provider. *)
Definition usage_error_reported (e : env) (prog : string) : Prop :=
  stderr (python e) = ("Usage: " ++ prog ++ " <device>") ++ NL /\
  status (python e) <> 0%Z /\
  reads (trace (python e)) = [].

(** How often a trace tries the import. *)
Fixpoint imports (tr : list event) : nat :=
  match tr with
  | [] => 0
  | EvImport :: tr' => S (imports tr')
  | _ :: tr' => imports tr'
  end.

Definition no_library : error :=
  mkError (OtherClass "OSError") "could not find libdiscid".

Definition env_no_library : env :=
  mkEnv [prog0; dev0] (Some no_library) good_provider.
Definition env_empty_argv : env := mkEnv [] None good_provider.

Example run_success :
  python env_success
  = mkProcess ("abc123XYZ" ++ NL) "" 0
      [EvImport; EvRead dev0; EvWrite Stdout ("abc123XYZ" ++ NL)].
Proof. reflexivity. Qed.

Example run_empty_drive :
  python env_empty_drive
  = mkProcess "" ("ERROR: no disc in drive" ++ NL) 1
      [EvImport; EvRead dev0; EvWrite Stderr ("ERROR: no disc in drive" ++ NL)].
Proof. reflexivity. Qed.

Example run_no_argument :
  python env_no_argument
  = mkProcess "" ("Usage: get_musicbrainz_discid.py <device>" ++ NL) 1
      [EvImport;
       EvWrite Stderr ("Usage: get_musicbrainz_discid.py <device>" ++ NL)].
Proof. reflexivity. Qed.

Example run_not_installed :
  python env_not_installed
  = mkProcess ""
      ("ERROR: python-discid not installed" ++ NL ++
       "Install with: pip3 install --break-system-packages discid" ++ NL)
      1
      [EvImport;
       EvWrite Stderr ("ERROR: python-discid not installed" ++ NL);
       EvWrite Stderr
         ("Install with: pip3 install --break-system-packages discid" ++ NL)].
Proof. reflexivity. Qed.

Example run_broken_provider :
  script env_broken_provider []
  = (Raises (Exception (mkError (OtherClass "NotImplementedError")
                                "no features")),
     [EvImport; EvRead dev0]).
Proof. reflexivity. Qed.

(** ** The seven paths through the script

    One equation per path: the result of the module body and the full trace
    of what it did.  The claims below are read off these. *)

Ltac run_script :=
  unfold script, try_except, bind, import_, len_argv, argv_at, read,
    print, sys_exit, emit, raise, ret; simpl.

Section Paths.

Variable e : env.

Lemma script_import_handled err :
  import_discid e = Some err ->
  issubclass (cls err) ImportError = true ->
  script e [] =
    (Raises (SystemExit 1),
     [EvImport;
      EvWrite Stderr ("ERROR: python-discid not installed" ++ NL);
      EvWrite Stderr
        ("Install with: pip3 install --break-system-packages discid"
         ++ NL)]).
Proof.
  intros Himp Hsub. run_script. rewrite Himp. simpl. rewrite Hsub.
  reflexivity.
Qed.

Lemma script_import_escapes err :
  import_discid e = Some err ->
  issubclass (cls err) ImportError = false ->
  script e [] = (Raises (Exception err), [EvImport]).
Proof.
  intros Himp Hsub. run_script. rewrite Himp. simpl. rewrite Hsub.
  reflexivity.
Qed.

Lemma script_empty_argv :
  import_discid e = None ->
  argv e = [] ->
  script e [] =
    (Raises (Exception (mkError IndexError "list index out of range")),
     [EvImport]).
Proof.
  intros Himp Hargv. run_script. rewrite Himp, Hargv. reflexivity.
Qed.

Lemma script_usage prog :
  import_discid e = None ->
  argv e = [prog] ->
  script e [] =
    (Raises (SystemExit 1),
     [EvImport; EvWrite Stderr (("Usage: " ++ prog ++ " <device>") ++ NL)]).
Proof.
  intros Himp Hargv. run_script. rewrite Himp, Hargv. reflexivity.
Qed.

Lemma script_read_ok prog device rest disc :
  import_discid e = None ->
  argv e = prog :: device :: rest ->
  discid_read e device = Ok disc ->
  script e [] =
    (Returns tt,
     [EvImport; EvRead device; EvWrite Stdout (discid.id disc ++ NL)]).
Proof.
  intros Himp Hargv Hread. run_script. rewrite Himp, Hargv. simpl.
  rewrite Hread. reflexivity.
Qed.

Lemma script_read_handled prog device rest err :
  import_discid e = None ->
  argv e = prog :: device :: rest ->
  discid_read e device = Fails err ->
  issubclass (cls err) DiscError = true ->
  script e [] =
    (Raises (SystemExit 1),
     [EvImport; EvRead device;
      EvWrite Stderr (("ERROR: " ++ str err) ++ NL)]).
Proof.
  intros Himp Hargv Hread Hsub. run_script. rewrite Himp, Hargv. simpl.
  rewrite Hread. simpl. rewrite Hsub. reflexivity.
Qed.

Lemma script_read_escapes prog device rest err :
  import_discid e = None ->
  argv e = prog :: device :: rest ->
  discid_read e device = Fails err ->
  issubclass (cls err) DiscError = false ->
  script e [] = (Raises (Exception err), [EvImport; EvRead device]).
Proof.
  intros Himp Hargv Hread Hsub. run_script. rewrite Himp, Hargv. simpl.
  rewrite Hread. simpl. rewrite Hsub. reflexivity.
Qed.

End Paths.

Example run_extra_argument :
  python env_extra_argument
  = mkProcess ("abc123XYZ" ++ NL) "" 0
      [EvImport; EvRead dev0; EvWrite Stdout ("abc123XYZ" ++ NL)].
Proof. reflexivity. Qed.

(** ** Facts about strings and traces *)

Lemma append_empty_r (s : string) : s ++ "" = s.
Proof. induction s as [|a s IH]; simpl; [|rewrite IH]; reflexivity. Qed.


Lemma reads_app tr1 tr2 : reads (tr1 ++ tr2) = (reads tr1 ++ reads tr2)%list.
Proof.
  induction tr1 as [|ev tr1 IH]; simpl; [reflexivity|].
  destruct ev; simpl; rewrite IH; reflexivity.
Qed.

(** A trace without a read has no position at which a read sits. *)
Lemma no_read_no_split tr pre device post :
  reads tr = [] -> tr <> (pre ++ EvRead device :: post)%list.
Proof.
  intros Hr Heq. subst tr. rewrite reads_app in Hr. simpl in Hr.
  destruct (reads pre); discriminate.
Qed.

(** In a trace that imports, reads once and then only writes, the read is
    found at one place only. *)
Lemma one_read_split d rest pre device post :
  reads rest = [] ->
  EvImport :: EvRead d :: rest = (pre ++ EvRead device :: post)%list ->
  pre = [EvImport] /\ device = d /\ post = rest.
Proof.
  intros Hrest Heq.
  destruct pre as [|a [|b pre]]; simpl in Heq.
  - discriminate.
  - injection Heq as Ha Hd Hp. subst. auto.
  - injection Heq as Ha Hb Hp.
    exfalso. exact (no_read_no_split _ _ _ _ Hrest Hp).
Qed.

(** Case analysis on what the environment does, one goal per path, each
    with the matching equation of [script] rewritten in. *)
Ltac script_paths e :=
  let err := fresh "err" in
  let Himp := fresh "Himp" in
  let Hsub := fresh "Hsub" in
  let Hargv := fresh "Hargv" in
  let Hread := fresh "Hread" in
  let prog := fresh "prog" in
  let device := fresh "device" in
  let rest := fresh "rest" in
  let disc := fresh "disc" in
  destruct (import_discid e) as [err|] eqn:Himp;
  [ destruct (issubclass (cls err) ImportError) eqn:Hsub;
    [ rewrite (script_import_handled e err Himp Hsub)
    | rewrite (script_import_escapes e err Himp Hsub) ]
  | destruct (argv e) as [|prog [|device rest]] eqn:Hargv;
    [ rewrite (script_empty_argv e Himp Hargv)
    | rewrite (script_usage e prog Himp Hargv)
    | destruct (discid_read e device) as [disc|err] eqn:Hread;
      [ rewrite (script_read_ok e prog device rest disc Himp Hargv Hread)
      | destruct (issubclass (cls err) DiscError) eqn:Hsub;
        [ rewrite (script_read_handled e prog device rest err
                     Himp Hargv Hread Hsub)
        | rewrite (script_read_escapes e prog device rest err
                     Himp Hargv Hread Hsub) ] ] ] ].

(** ** The command-line contract *)

(** C1: when the module loads, a device path is given and the provider
    returns a disc whose ID is [s], the process writes exactly [s] and a
    line end to standard output, nothing to the error stream, and ends with
    status 0. *)
Theorem success_prints_disc_id e prog device rest disc :
  import_discid e = None ->
  argv e = prog :: device :: rest ->
  discid_read e device = Ok disc ->
  stdout (python e) = discid.id disc ++ NL /\
  stderr (python e) = "" /\
  status (python e) = 0%Z.
Proof.
  intros Himp Hargv Hread. unfold python.
  rewrite (script_read_ok e prog device rest disc Himp Hargv Hread).
  simpl. rewrite append_empty_r. auto.
Qed.

Lemma success_prints_disc_id_witness :
  (import_discid env_success = None /\
   argv env_success = [prog0; dev0] /\
   discid_read env_success dev0 = Ok (discid.mkDisc "abc123XYZ")) /\
  stdout (python env_success) = "abc123XYZ" ++ NL /\
  stderr (python env_success) = "" /\
  status (python env_success) = 0%Z.
Proof.
  split.
  - repeat split; reflexivity.
  - apply (success_prints_disc_id env_success prog0 dev0 []
             (discid.mkDisc "abc123XYZ")); reflexivity.
Defined.

(** C2: when the module loads, a device path is given and the provider
    raises [DiscError] with message [m], the process writes exactly
    [ERROR: m] as one line to the error stream, nothing to standard output,
    and ends with a non-zero status. *)
Theorem disc_error_reported e prog device rest m :
  import_discid e = None ->
  argv e = prog :: device :: rest ->
  discid_read e device = Fails (mkError DiscError m) ->
  stderr (python e) = "ERROR: " ++ m ++ NL /\
  stdout (python e) = "" /\
  status (python e) <> 0%Z.
Proof.
  intros Himp Hargv Hread. unfold python.
  rewrite (script_read_handled e prog device rest _ Himp Hargv Hread eq_refl).
  simpl. rewrite append_empty_r. repeat split. discriminate.
Qed.

Lemma disc_error_reported_witness :
  (import_discid env_empty_drive = None /\
   argv env_empty_drive = [prog0; dev0] /\
   discid_read env_empty_drive dev0
     = Fails (mkError DiscError "no disc in drive")) /\
  stderr (python env_empty_drive) = "ERROR: no disc in drive" ++ NL /\
  stdout (python env_empty_drive) = "" /\
  status (python env_empty_drive) <> 0%Z.
Proof.
  split.
  - repeat split; reflexivity.
  - apply (disc_error_reported env_empty_drive prog0 dev0 []
             "no disc in drive"); reflexivity.
Defined.

(** C3, as amended: once the module has loaded, an argument vector that
    holds the program name and nothing else makes the process write the
    usage synopsis to the error stream and end with a non-zero status
    without calling the provider.  (More than one argument after the
    program name is not a usage error.) *)
Theorem missing_argument_is_usage_error e prog :
  import_discid e = None ->
  argv e = [prog] ->
  usage_error_reported e prog.
Proof.
  intros Himp Hargv. unfold usage_error_reported, python.
  rewrite (script_usage e prog Himp Hargv). simpl.
  rewrite append_empty_r. repeat split. discriminate.
Qed.

Lemma missing_argument_is_usage_error_witness :
  (import_discid env_no_argument = None /\
   argv env_no_argument = [prog0]) /\
  usage_error_reported env_no_argument prog0.
Proof.
  split.
  - split; reflexivity.
  - apply (missing_argument_is_usage_error env_no_argument prog0);
      reflexivity.
Defined.

(** C3, as stated, fails: with two arguments after the program name the
    argument vector does not hold exactly one positional argument, and yet
    no usage error is reported for any program name; the provider is called
    and the process ends with status 0. *)
Lemma extra_argument_is_no_usage_error :
  length (argv env_extra_argument) <> 2%nat /\
  (forall prog, ~ usage_error_reported env_extra_argument prog) /\
  reads (trace (python env_extra_argument)) = [dev0] /\
  stderr (python env_extra_argument) = "" /\
  status (python env_extra_argument) = 0%Z.
Proof.
  split; [simpl; discriminate|].
  split; [|repeat split].
  intros prog [_ [_ Hreads]]. discriminate Hreads.
Qed.

(** C4, as amended: when [import discid] raises [ImportError] (or its
    subclass [ModuleNotFoundError]), then whatever the argument vector holds the
    process writes two lines to the error stream, the first naming
    python-discid as not installed and the second giving the pip command
    that installs it, writes nothing to standard output, never calls the
    provider, and ends with a non-zero status. *)
Theorem missing_dependency_reported args err provider :
  issubclass (cls err) ImportError = true ->
  let p := python (mkEnv args (Some err) provider) in
  stderr p =
    "ERROR: python-discid not installed" ++ NL ++
    "Install with: pip3 install --break-system-packages discid" ++ NL /\
  stdout p = "" /\
  reads (trace p) = [] /\
  status p <> 0%Z.
Proof.
  intros Hsub p. subst p. unfold python.
  rewrite (script_import_handled (mkEnv args (Some err) provider) err
             eq_refl Hsub).
  simpl. repeat split. discriminate.
Qed.

Lemma missing_dependency_reported_witness :
  issubclass (cls no_module) ImportError = true /\
  stderr (python env_not_installed) =
    "ERROR: python-discid not installed" ++ NL ++
    "Install with: pip3 install --break-system-packages discid" ++ NL /\
  stdout (python env_not_installed) = "" /\
  reads (trace (python env_not_installed)) = [] /\
  status (python env_not_installed) <> 0%Z.
Proof.
  split.
  - reflexivity.
  - apply (missing_dependency_reported [prog0; dev0] no_module good_provider).
    reflexivity.
Defined.

(** C4, as stated, fails: the module can fail to load with an exception
    that is not an [ImportError], as when the shared library behind it is
    missing and the import raises [OSError].  The handler does not take it:
    the script itself writes nothing to the error stream, so neither the
    "not installed" line nor the installation hint appears; all the caller
    gets is the interpreter's traceback. *)
Lemma missing_library_gets_no_hint :
  import_discid env_no_library = Some no_library /\
  script env_no_library [] = (Raises (Exception no_library), [EvImport]) /\
  written Stderr (trace (python env_no_library)) = "" /\
  stderr (python env_no_library) =
    "Traceback (most recent call last):" ++ NL ++
    "OSError: could not find libdiscid" ++ NL /\
  stderr (python env_no_library) <>
    "ERROR: python-discid not installed" ++ NL ++
    "Install with: pip3 install --break-system-packages discid" ++ NL.
Proof.
  split; [reflexivity|]. split; [reflexivity|]. split; [reflexivity|].
  split; [reflexivity|]. simpl. discriminate.
Qed.

(** C5: every invocation ends in one of two ways.  Either the read
    succeeded, the disc ID (and nothing else) is on standard output, the
    error stream is empty and the status is 0; or standard output is empty,
    the error stream is not, and the status is non-zero.  In particular no
    run that called the provider and saw it fail has anything on standard
    output. *)
Theorem outputs_mutually_exclusive e :
  let p := python e in
  ((exists prog device rest disc,
      import_discid e = None /\
      argv e = prog :: device :: rest /\
      discid_read e device = Ok disc /\
      stdout p = discid.id disc ++ NL /\ stderr p = "" /\ status p = 0%Z)
   \/
   (stdout p = "" /\ stderr p <> "" /\ status p <> 0%Z))
  /\
  (forall device err,
      In (EvRead device) (trace p) ->
      discid_read e device = Fails err ->
      stdout p = "").
Proof.
  intros p. subst p. unfold python.
  script_paths e; simpl; (split; [|try reflexivity]);
    try (right; repeat split; discriminate).
  - left. exists prog, device, rest, disc. rewrite append_empty_r.
    repeat split; assumption.
  - intros d err' [H|[H|[H|[]]]]; try discriminate H.
    injection H as ->. intros Hfail. rewrite Hread in Hfail. discriminate.
Qed.

Lemma outputs_mutually_exclusive_witness :
  (In (EvRead dev0) (trace (python env_empty_drive)) /\
   discid_read env_empty_drive dev0
     = Fails (mkError DiscError "no disc in drive")) /\
  stdout (python env_empty_drive) = "".
Proof.
  split.
  - split; [simpl; auto | reflexivity].
  - apply (proj2 (outputs_mutually_exclusive env_empty_drive) dev0
             (mkError DiscError "no disc in drive")).
    + simpl; auto.
    + reflexivity.
Defined.





(** C8: in every invocation the provider is called at most once.  Wherever
    a call sits in the trace, the import came before it and succeeded, at
    least one argument follows the program name, the call is for the first
    of them, and no further call follows.  When the call fails, the run is
    over: standard output stays empty, the error stream is not empty, the
    status is non-zero, and for a [DiscError] the one thing that follows the
    call is the [ERROR:] line. *)
Theorem provider_called_at_most_once e :
  let p := python e in
  (length (reads (trace p)) <= 1)%nat /\
  (forall pre device post,
      trace p = (pre ++ EvRead device :: post)%list ->
      pre = [EvImport] /\
      import_discid e = None /\
      (2 <= length (argv e))%nat /\
      nth_error (argv e) 1 = Some device /\
      reads post = []) /\
  (forall pre device post err,
      trace p = (pre ++ EvRead device :: post)%list ->
      discid_read e device = Fails err ->
      stdout p = "" /\ stderr p <> "" /\ status p <> 0%Z /\
      (issubclass (cls err) DiscError = true ->
       post = [EvWrite Stderr (("ERROR: " ++ str err) ++ NL)])).
Proof.
  intros p. subst p. unfold python.
  script_paths e; simpl;
    (split; [lia|]);
    (split; [intros pre d post Hsplit | intros pre d post err' Hsplit Hfail]);
    try (exfalso; revert Hsplit; apply no_read_no_split; reflexivity);
    apply one_read_split in Hsplit; try reflexivity;
    destruct Hsplit as [-> [-> ->]];
    try (repeat split; simpl; try reflexivity; lia).
  - rewrite Hread in Hfail. discriminate.
  - rewrite Hread in Hfail. injection Hfail as ->.
    repeat split; discriminate.
  - rewrite Hread in Hfail. injection Hfail as ->.
    repeat split; try discriminate.
    intros Hsub'. rewrite Hsub in Hsub'. discriminate.
Qed.

Lemma provider_called_at_most_once_witness :
  (trace (python env_empty_drive)
     = ([EvImport] ++ EvRead dev0
          :: [EvWrite Stderr ("ERROR: no disc in drive" ++ NL)])%list /\
   discid_read env_empty_drive dev0
     = Fails (mkError DiscError "no disc in drive")) /\
  stdout (python env_empty_drive) = "" /\
  stderr (python env_empty_drive) <> "" /\
  status (python env_empty_drive) <> 0%Z.
Proof.
  split; [split; reflexivity|].
  destruct (proj2 (proj2 (provider_called_at_most_once env_empty_drive))
              [EvImport] dev0
              [EvWrite Stderr ("ERROR: no disc in drive" ++ NL)]
              (mkError DiscError "no disc in drive") eq_refl eq_refl)
    as [Hout [Herr [Hstatus _]]].
  auto.
Defined.

(** What follows the first positional argument never reaches the script. *)
Lemma script_ignores_rest prog device rest imp provider :
  script (mkEnv (prog :: device :: rest) imp provider) []
  = script (mkEnv [prog; device] imp provider) [].
Proof. reflexivity. Qed.

(** C9: with two or more arguments after the program name the process
    behaves, event for event, as if only the first had been given; what it
    writes to the error stream is never the usage line; and if the module
    loaded, the provider is called with the first argument, once. *)
Theorem extra_arguments_ignored prog device extra more imp provider :
  let p := python (mkEnv (prog :: device :: extra :: more) imp provider) in
  p = python (mkEnv [prog; device] imp provider) /\
  (forall name, stderr p <> ("Usage: " ++ name ++ " <device>") ++ NL) /\
  reads (trace p) = match imp with None => [device] | Some _ => [] end.
Proof.
  intros p. subst p. split; [|split].
  - unfold python. rewrite script_ignores_rest. reflexivity.
  - intros name. unfold python.
    script_paths (mkEnv (prog :: device :: extra :: more) imp provider);
      simpl; discriminate.
  - unfold python.
    script_paths (mkEnv (prog :: device :: extra :: more) imp provider);
      simpl in *; subst; try reflexivity; try discriminate;
      injection Hargv as _ ->; reflexivity.
Qed.

(** C10: when the provider raises an exception whose class is not
    [DiscError], the handler around the call does not run: the exception
    leaves the module body as it was raised, nothing was written by the
    script after the call (so no [ERROR:] line, for any message), and what
    the caller sees is the interpreter's traceback and status 1. *)
Theorem other_provider_failure_propagates e prog device rest err :
  import_discid e = None ->
  argv e = prog :: device :: rest ->
  discid_read e device = Fails err ->
  issubclass (cls err) DiscError = false ->
  fst (script e []) = Raises (Exception err) /\
  snd (script e []) = [EvImport; EvRead device] /\
  (forall m, ~ In (EvWrite Stderr (("ERROR: " ++ m) ++ NL))
               (snd (script e []))) /\
  stdout (python e) = "" /\
  stderr (python e) = traceback err /\
  status (python e) = 1%Z.
Proof.
  intros Himp Hargv Hread Hsub. unfold python.
  rewrite (script_read_escapes e prog device rest err Himp Hargv Hread Hsub).
  simpl. repeat split.
  intros m [H|[H|[]]]; discriminate H.
Qed.

Lemma other_provider_failure_propagates_witness :
  (import_discid env_broken_provider = None /\
   argv env_broken_provider = [prog0; dev0] /\
   discid_read env_broken_provider dev0
     = Fails (mkError (OtherClass "NotImplementedError") "no features") /\
   issubclass (OtherClass "NotImplementedError") DiscError = false) /\
  fst (script env_broken_provider [])
    = Raises (Exception (mkError (OtherClass "NotImplementedError")
                                 "no features")).
Proof.
  split.
  - repeat split; reflexivity.
  - apply (other_provider_failure_propagates env_broken_provider prog0 dev0 []
             (mkError (OtherClass "NotImplementedError") "no features"));
      reflexivity.
Defined.

(** ** Beyond the contract: the edges of the three statements *)

(** X1: the handler around [import discid] takes [ImportError] only.  When
    the import raises an exception of another class, the exception leaves
    the module body as it was raised right after the import: the script
    writes nothing (no "not installed" line), the provider is not called,
    and the caller sees the interpreter's traceback and status 1. *)
Theorem other_import_failure_propagates e err :
  import_discid e = Some err ->
  issubclass (cls err) ImportError = false ->
  script e [] = (Raises (Exception err), [EvImport]) /\
  stdout (python e) = "" /\
  stderr (python e) = traceback err /\
  stderr (python e) <>
    "ERROR: python-discid not installed" ++ NL ++
    "Install with: pip3 install --break-system-packages discid" ++ NL /\
  reads (trace (python e)) = [] /\
  status (python e) = 1%Z.
Proof.
  intros Himp Hsub. unfold python.
  rewrite (script_import_escapes e err Himp Hsub). simpl.
  repeat split. discriminate.
Qed.

Lemma other_import_failure_propagates_witness :
  (import_discid env_no_library = Some no_library /\
   issubclass (cls no_library) ImportError = false) /\
  script env_no_library [] = (Raises (Exception no_library), [EvImport]) /\
  status (python env_no_library) = 1%Z.
Proof.
  split; [split; reflexivity|].
  destruct (other_import_failure_propagates env_no_library no_library
              eq_refl eq_refl) as [Hscript [_ [_ [_ [_ Hstatus]]]]].
  split; assumption.
Defined.

(** X2: with an argument vector that is empty (not even a program name)
    the length test sends the script into the usage branch, where
    [sys.argv[0]] raises [IndexError] before anything is printed: no usage
    line is written, the provider is not called, and the run ends with the
    traceback and status 1. *)
Theorem empty_argv_raises_index_error e :
  import_discid e = None ->
  argv e = [] ->
  script e [] =
    (Raises (Exception (mkError IndexError "list index out of range")),
     [EvImport]) /\
  stdout (python e) = "" /\
  stderr (python e)
    = traceback (mkError IndexError "list index out of range") /\
  reads (trace (python e)) = [] /\
  status (python e) = 1%Z.
Proof.
  intros Himp Hargv. unfold python.
  rewrite (script_empty_argv e Himp Hargv). simpl. repeat split.
Qed.

Lemma empty_argv_raises_index_error_witness :
  (import_discid env_empty_argv = None /\ argv env_empty_argv = []) /\
  stderr (python env_empty_argv)
    = traceback (mkError IndexError "list index out of range") /\
  status (python env_empty_argv) = 1%Z.
Proof.
  split; [split; reflexivity|].
  destruct (empty_argv_raises_index_error env_empty_argv eq_refl eq_refl)
    as [_ [_ [Herr [_ Hstatus]]]].
  split; assumption.
Defined.

(** X3: the import is the first thing every run does, and it is tried
    once: nothing is written and no argument is looked at before it. *)
Theorem import_comes_first e :
  exists rest,
    trace (python e) = EvImport :: rest /\ imports rest = 0%nat.
Proof.
  unfold python. script_paths e; simpl; eexists; split; reflexivity.
Qed.

(** X4: what a run does is decided by three things only: what the import
    does, the first two entries of the argument vector, and what the
    provider answers for the second of them.  Two invocations that agree
    on these give the same streams, status and trace. *)
Theorem python_depends_on_first_two e1 e2 :
  import_discid e1 = import_discid e2 ->
  firstn 2 (argv e1) = firstn 2 (argv e2) ->
  (forall device,
      nth_error (argv e1) 1 = Some device ->
      discid_read e1 device = discid_read e2 device) ->
  python e1 = python e2.
Proof.
  intros Himp Hargv Hread.
  assert (Hscript : script e1 [] = script e2 []).
  { run_script. rewrite <- Himp.
    destruct (import_discid e1) as [err|]; simpl.
    - destruct (issubclass (cls err) ImportError); reflexivity.
    - destruct (argv e1) as [|p1 [|d1 r1]], (argv e2) as [|p2 [|d2 r2]];
        simpl in Hargv; try discriminate Hargv; try reflexivity.
      + injection Hargv as ->. reflexivity.
      + injection Hargv as -> ->. simpl.
        rewrite <- (Hread d2 eq_refl). reflexivity. }
  unfold python. rewrite Hscript. reflexivity.
Qed.

Lemma python_depends_on_first_two_witness :
  (import_discid env_extra_argument = import_discid env_success /\
   firstn 2 (argv env_extra_argument) = firstn 2 (argv env_success) /\
   (forall device,
       nth_error (argv env_extra_argument) 1 = Some device ->
       discid_read env_extra_argument device
       = discid_read env_success device)) /\
  python env_extra_argument = python env_success.
Proof.
  split.
  - split; [reflexivity|]. split; [reflexivity|]. intros device _.
    reflexivity.
  - apply (python_depends_on_first_two env_extra_argument env_success).
    + reflexivity.
    + reflexivity.
    + intros device _. reflexivity.
Defined.

(** X5: once the import has failed, with whatever exception, neither the
    argument vector nor the provider has any influence on the run. *)
Theorem import_failure_ignores_the_rest args1 args2 err provider1 provider2 :
  python (mkEnv args1 (Some err) provider1)
  = python (mkEnv args2 (Some err) provider2).
Proof.
  unfold python. run_script.
  destruct (issubclass (cls err) ImportError); reflexivity.
Qed.
